(** * Quora_Spider: the incremental discovery engine of [quora_scraper.py]

    A shallow embedding of [QuoraScraper.extract_posts],
    [QuoraScraper.extract_posts_for_count], [QuoraScraper.search_keyword]
    and [QuoraScraper.scrape_posts], and the properties of the
    specification that concern them.

    The browser page is an external collaborator.  Every call into it
    ([query_selector], [inner_text], [click], ...) either returns a value
    or raises a Python [Exception]; a page is therefore modelled by the
    answers it gives.  Python text is modelled by [string], each [ascii]
    standing for one code point below 256. *)

From Stdlib Require Import String Ascii List ZArith Lia Bool Arith PeanoNat.
From Stdlib Require Import DecimalString.
Import ListNotations.
Open Scope string_scope.

(** ** Calls that may raise *)

(** The outcome of a driver call: a value, or a raised [Exception]. *)
Inductive result (A : Type) : Type :=
| Ok (a : A)
| Raise.
Arguments Ok {A} a.
Arguments Raise {A}.

(** A block of Python statements over mutable local variables [S]: it runs
    from a store to a store and either yields a value or raises.  The store
    reached when the block raises is kept: an [except] handler sees the
    assignments made before the failure. *)
Definition exn (S A : Type) : Type := S -> S * result A.

Section ExnMonad.
Context {S : Type}.

Definition ret {A} (a : A) : exn S A := fun s => (s, Ok a).

Definition bind {A B} (m : exn S A) (k : A -> exn S B) : exn S B :=
  fun s =>
    match m s with
    | (s', Ok a) => k a s'
    | (s', Raise) => (s', Raise)
    end.

(** A call into the driver: the store is untouched. *)
Definition call {A} (r : result A) : exn S A := fun s => (s, r).

Definition get : exn S S := fun s => (s, Ok s).

Definition modify (f : S -> S) : exn S unit := fun s => (f s, Ok tt).

(** [try: body except Exception: handler] *)
Definition try_except {A} (body handler : exn S A) : exn S A :=
  fun s =>
    match body s with
    | (s', Ok a) => (s', Ok a)
    | (s', Raise) => handler s'
    end.
End ExnMonad.

Declare Scope exn_scope.
Delimit Scope exn_scope with exn.
Notation "x <- m ;; k" := (bind m (fun x => k))
  (at level 61, m at next level, right associativity) : exn_scope.
Notation "m ;; k" := (bind m (fun _ => k))
  (at level 61, right associativity) : exn_scope.
Open Scope exn_scope.

(** How the body of a [for] or [while] iteration ends: it falls through
    (or executes [continue]), or it executes [break]. *)
Inductive flow : Type := Next | Break.

(** [for x in xs: body] *)
Fixpoint for_each {S X} (xs : list X) (body : X -> exn S flow) : exn S unit :=
  match xs with
  | [] => ret tt
  | x :: xs' =>
      f <- body x ;;
      match f with
      | Break => ret tt
      | Next => for_each xs' body
      end
  end.

(** ** Python strings *)

(** [str.isspace] on the code points below 256. *)
Definition is_space (c : ascii) : bool :=
  let n := nat_of_ascii c in
  ((9 <=? n) && (n <=? 13) || (28 <=? n) && (n <=? 32)
   || (n =? 133) || (n =? 160))%nat.

Fixpoint lstrip (s : string) : string :=
  match s with
  | EmptyString => EmptyString
  | String c s' => if is_space c then lstrip s' else s
  end.

Fixpoint rstrip (s : string) : string :=
  match s with
  | EmptyString => EmptyString
  | String c s' =>
      match rstrip s' with
      | EmptyString => if is_space c then EmptyString else String c EmptyString
      | r => String c r
      end
  end.

(** [s.strip()] *)
Definition strip (s : string) : string := rstrip (lstrip s).

(** Truth value of a string: [if s] holds of the non-empty strings. *)
Definition truthy (s : string) : bool :=
  match s with EmptyString => false | String _ _ => true end.

(** [s.startswith(p)] *)
Definition startswith (s p : string) : bool := String.prefix p s.

(** [needle in hay] *)
Fixpoint contains (needle hay : string) : bool :=
  String.prefix needle hay ||
  match hay with
  | EmptyString => false
  | String _ hay' => contains needle hay'
  end.

(** [str.lower] on the code points below 256: [A-Z] and the Latin-1
    capitals [0xC0 .. 0xDE] other than the multiplication sign [0xD7]. *)
Definition lower_char (c : ascii) : ascii :=
  let n := nat_of_ascii c in
  if ((65 <=? n) && (n <=? 90)
      || (192 <=? n) && (n <=? 222) && negb (n =? 215))%nat
  then ascii_of_nat (n + 32) else c.

Fixpoint lower (s : string) : string :=
  match s with
  | EmptyString => EmptyString
  | String c s' => String (lower_char c) (lower s')
  end.

(** [f"{i}"] for a non-negative integer. *)
Definition str_of_nat (i : nat) : string :=
  NilEmpty.string_of_uint (Nat.to_uint i).

(** ** The page driver *)

(** An element handle, by the answers of the three methods the scraper
    uses. *)
Record element : Type := {
  inner_text : result string;
  get_attribute : string -> result (option string);
  click : result unit
}.

(** The rendered page during one extraction pass.  Within a pass every
    selector is queried at most once, so the answers of the page form a
    function of the selector. *)
Record page : Type := {
  query_selector : string -> result (option element);
  query_selector_all : string -> result (list element)
}.

(** ** Records *)

(** The dict appended to [posts].  The primary pass writes the seven keys;
    the fallback pass and the counting pass write [title], [url] and
    [content] only, the other keys being absent ([None]). *)
Module Post.
Record t : Type := {
  title : string;
  url : string;
  follow_text : option string;
  follow_count : option string;
  views : option string;
  likes : option string;
  content : string
}.
End Post.
Definition post : Type := Post.t.

(** ** Selectors *)

Definition main_list : string :=
  "#mainContent > div > div > div:nth-child(2) > div:nth-child(".

Definition selector1 (i : nat) : string :=
  main_list ++ str_of_nat i
  ++ ") > div > div > div:nth-child(1) > div > span > span > a".

Definition selector2 (i : nat) : string :=
  main_list ++ str_of_nat i ++ ") > span > a".

Definition more_selector (i : nat) : string :=
  main_list ++ str_of_nat i
  ++ ") > div > div:nth-child(1) > div > div.q-click-wrapper.c1nud10e.qu-display--block.qu-tapHighlight--none.qu-cursor--pointer > div.q-box.spacing_log_answer_content.puppeteer_test_answer_content > div > div > div.q-absolute".

Definition views_selector (i : nat) : string :=
  main_list ++ str_of_nat i
  ++ ") > div > div:nth-child(1) > div > div.q-text.qu-dynamicFontSize--small.qu-pb--tiny.qu-mt--small.qu-color--gray_light.qu-passColorToLinks > div > span > span:nth-child(2)".

Definition likes_selector (i : nat) : string :=
  main_list ++ str_of_nat i
  ++ ") > div > div:nth-child(1) > div > div.q-text.qu-dynamicFontSize--small.qu-pb--tiny.qu-mt--small.qu-color--gray_light.qu-passColorToLinks > div > span > span:nth-child(4) > div > div".

Definition follow_selector (i : nat) : string :=
  main_list ++ str_of_nat i
  ++ ") > div > div > div.q-box.qu-zIndex--action_bar > div > div > div > div:nth-child(1) > button:nth-child(2) > div > div.q-text.qu-display--inline-flex.qu-alignItems--center.qu-overflow--hidden.puppeteer_test_button_text.qu-medium.qu-color--gray.qu-ellipsis.qu-ml--tiny".

Definition follow_count_selector (i : nat) : string :=
  main_list ++ str_of_nat i
  ++ ") > div > div > div.q-box.qu-zIndex--action_bar > div > div > div > div:nth-child(1) > button:nth-child(2) > div > div:nth-child(3)".

Definition follow_selector2 (i : nat) : string :=
  main_list ++ str_of_nat i
  ++ ") > div.q-box.puppeteer_test_question_component_base > div > div.q-box.qu-zIndex--action_bar > div > div > div > div:nth-child(1) > button > div > div.q-text.qu-display--inline-flex.qu-alignItems--center.qu-overflow--hidden.puppeteer_test_button_text.qu-medium.qu-color--gray.qu-ellipsis.qu-ml--tiny".

Definition follow_count_selector2 (i : nat) : string :=
  main_list ++ str_of_nat i
  ++ ") > div.q-box.puppeteer_test_question_component_base > div > div.q-box.qu-zIndex--action_bar > div > div > div > div:nth-child(1) > button > div > div:nth-child(3)".

Definition fallback_selectors : list string :=
  [ "a[href*='/answer/']";
    "a[href*='/question/']";
    "a[href*='/topic/']";
    "div[class*='answer'] a";
    "div[class*='question'] a";
    "div[class*='feed'] a";
    "div[class*='result'] a";
    "div[class*='item'] a";
    "div[class*='content'] a";
    "div[class*='post'] a";
    "div[class*='search'] a";
    "div[class*='list'] a";
    "div[class*='card'] a";
    "div[class*='tile'] a" ].

(** [range(1, 100)]: the slots the two passes iterate over. *)
Definition slot_range : list nat := seq 1 99.

(** [link1 if link1 else link2] *)
Definition choose_link (link1 link2 : option element) : option element :=
  match link1 with
  | Some l => Some l
  | None => link2
  end.

(** [title and len(title) > 10] *)
Definition valid_title (title : string) : bool :=
  truthy title && (10 <? String.length title)%nat.

(** ** extract_posts_for_count *)

(** The record of the counting pass. *)
Definition count_post (title : string) : post :=
  {| Post.title := title; Post.url := ""; Post.follow_text := None;
     Post.follow_count := None; Post.views := None; Post.likes := None;
     Post.content := "" |}.

(** One iteration of the [for i in range(1, 100)] loop of
    [extract_posts_for_count]; the store is the list [posts]. *)
Definition count_slot (pg : page) (i : nat) : exn (list post) flow :=
  link1 <- call (query_selector pg (selector1 i)) ;;
  link2 <- call (query_selector pg (selector2 i)) ;;
  match choose_link link1 link2 with
  | Some link =>
      try_except
        (text <- call (inner_text link) ;;
         let title := strip text in
         if valid_title title
         then modify (fun posts => posts ++ [count_post title])%list ;; ret Next
         else ret Next)
        (ret Next)
  | None => ret Next
  end.

Definition extract_posts_for_count_try (pg : page)
  : exn (list post) (list post) :=
  for_each slot_range (count_slot pg) ;;
  get.

(** [extract_posts_for_count], with its function-level handler. *)
Definition extract_posts_for_count_m (pg : page)
  : exn (list post) (list post) :=
  try_except (extract_posts_for_count_try pg) (ret []).

(** The call [self.extract_posts_for_count()]: [posts = []] and the body. *)
Definition extract_posts_for_count (pg : page) : result (list post) :=
  snd (extract_posts_for_count_m pg []).

(** ** extract_posts *)

(** The local variables of [extract_posts] that are assigned more than
    once. *)
Record frame : Type := {
  posts : list post;
  follow_text : string;
  follow_count : string;
  views : string;
  likes : string
}.

Definition set_posts (v : list post) (s : frame) : frame :=
  {| posts := v; follow_text := follow_text s;
     follow_count := follow_count s; views := views s; likes := likes s |}.
Definition set_follow_text (v : string) (s : frame) : frame :=
  {| posts := posts s; follow_text := v;
     follow_count := follow_count s; views := views s; likes := likes s |}.
Definition set_follow_count (v : string) (s : frame) : frame :=
  {| posts := posts s; follow_text := follow_text s;
     follow_count := v; views := views s; likes := likes s |}.
Definition set_views (v : string) (s : frame) : frame :=
  {| posts := posts s; follow_text := follow_text s;
     follow_count := follow_count s; views := v; likes := likes s |}.
Definition set_likes (v : string) (s : frame) : frame :=
  {| posts := posts s; follow_text := follow_text s;
     follow_count := follow_count s; views := views s; likes := v |}.

(** [if not x: x = "0"] for each of the two variables, as written in the
    handlers and at the end of the follow block. *)
Definition default_views : exn frame unit :=
  s <- get ;;
  if truthy (views s) then ret tt else modify (set_views "0").
Definition default_likes : exn frame unit :=
  s <- get ;;
  if truthy (likes s) then ret tt else modify (set_likes "0").
Definition default_follow_text : exn frame unit :=
  s <- get ;;
  if truthy (follow_text s) then ret tt else modify (set_follow_text "0").
Definition default_follow_count : exn frame unit :=
  s <- get ;;
  if truthy (follow_count s) then ret tt else modify (set_follow_count "0").

(** The block under [if link2:]: click the "more" control, then read the
    view and like counts. *)
Definition read_views_likes (pg : page) (i : nat) : exn frame unit :=
  try_except
    (more_button <- call (query_selector pg (more_selector i)) ;;
     match more_button with
     | Some button =>
         call (click button) ;;
         views_element <- call (query_selector pg (views_selector i)) ;;
         match views_element with
         | Some e =>
             text <- call (inner_text e) ;; modify (set_views (strip text))
         | None => modify (set_views "0")
         end ;;
         likes_element <- call (query_selector pg (likes_selector i)) ;;
         match likes_element with
         | Some e =>
             text <- call (inner_text e) ;; modify (set_likes (strip text))
         | None => modify (set_likes "0")
         end
     | None => ret tt
     end)
    (default_views ;; default_likes).

(** The block under [if link1:]: read the follow label and count at the
    first pair of locations, then at the second pair for what is still
    empty. *)
Definition read_follow (pg : page) (i : nat) : exn frame unit :=
  try_except
    (follow_element <- call (query_selector pg (follow_selector i)) ;;
     match follow_element with
     | Some e =>
         text <- call (inner_text e) ;; modify (set_follow_text (strip text))
     | None => ret tt
     end ;;
     follow_count_element <-
       call (query_selector pg (follow_count_selector i)) ;;
     match follow_count_element with
     | Some e =>
         text <- call (inner_text e) ;; modify (set_follow_count (strip text))
     | None => ret tt
     end ;;
     s <- get ;;
     (if truthy (follow_text s) then ret tt
      else
        follow_element2 <- call (query_selector pg (follow_selector2 i)) ;;
        match follow_element2 with
        | Some e =>
            text <- call (inner_text e) ;;
            modify (set_follow_text (strip text))
        | None => ret tt
        end) ;;
     s <- get ;;
     (if truthy (follow_count s) then ret tt
      else
        follow_count_element2 <-
          call (query_selector pg (follow_count_selector2 i)) ;;
        match follow_count_element2 with
        | Some e =>
            text <- call (inner_text e) ;;
            modify (set_follow_count (strip text))
        | None => ret tt
        end) ;;
     default_follow_text ;;
     default_follow_count)
    (default_follow_text ;; default_follow_count).

(** The three-way choice that computes [full_url] from [href]. *)
Definition resolve_url (href : option string) : string :=
  match href with
  | Some h =>
      if truthy h && startswith h "/" then "https://www.quora.com" ++ h
      else if truthy h then h
      else ""
  | None => ""
  end.

(** The dict appended by the primary pass, from the current locals. *)
Definition primary_post (title full_url : string) (s : frame) : post :=
  {| Post.title := title; Post.url := full_url;
     Post.follow_text := Some (follow_text s);
     Post.follow_count := Some (follow_count s);
     Post.views := Some (views s); Post.likes := Some (likes s);
     Post.content := "" |}.

(** The dict appended by the fallback pass. *)
Definition fallback_post (title full_url : string) : post :=
  {| Post.title := title; Post.url := full_url; Post.follow_text := None;
     Post.follow_count := None; Post.views := None; Post.likes := None;
     Post.content := "" |}.

Definition append_post (p : post) (s : frame) : frame :=
  set_posts (posts s ++ [p])%list s.

(** [len(posts) >= target_posts] *)
Definition reached (s : frame) (target_posts : Z) : bool :=
  (Z.of_nat (length (posts s)) >=? target_posts)%Z.

(** One iteration of the primary [for i in range(1, 100)] loop. *)
Definition primary_slot (pg : page) (target_posts : Z) (i : nat)
  : exn frame flow :=
  link1 <- call (query_selector pg (selector1 i)) ;;
  link2 <- call (query_selector pg (selector2 i)) ;;
  modify (set_follow_text "") ;;
  modify (set_follow_count "") ;;
  modify (set_views "") ;;
  modify (set_likes "") ;;
  match link2 with
  | Some _ => read_views_likes pg i
  | None => ret tt
  end ;;
  match choose_link link1 link2 with
  | Some link =>
      try_except
        (href <- call (get_attribute link "href") ;;
         text <- call (inner_text link) ;;
         let title := strip text in
         if valid_title title then
           let full_url := resolve_url href in
           match link1 with
           | Some _ => read_follow pg i
           | None => ret tt
           end ;;
           modify (fun s => append_post (primary_post title full_url s) s) ;;
           s <- get ;;
           if reached s target_posts then ret Break else ret Next
         else ret Next)
        (ret Next)
  | None => ret Next
  end.

(** One iteration of [for link in links] in the fallback pass. *)
Definition fallback_link (target_posts : Z) (link : element)
  : exn frame flow :=
  s <- get ;;
  if reached s target_posts then ret Break
  else
    try_except
      (href <- call (get_attribute link "href") ;;
       text <- call (inner_text link) ;;
       let title := strip text in
       if valid_title title then
         let full_url := resolve_url href in
         modify (append_post (fallback_post title full_url)) ;;
         ret Next
       else ret Next)
      (ret Next).

(** One iteration of [for selector in fallback_selectors]. *)
Definition fallback_selector (pg : page) (target_posts : Z)
  (selector : string) : exn frame flow :=
  s <- get ;;
  if reached s target_posts then ret Break
  else
    try_except
      (links <- call (query_selector_all pg selector) ;;
       for_each links (fallback_link target_posts) ;;
       ret Next)
      (ret Next).

(** [getattr(self, 'target_posts', 10)] *)
Definition getattr_target_posts (self_target_posts : option Z) : Z :=
  match self_target_posts with
  | Some t => t
  | None => 10%Z
  end.

(** The body of the function-level [try] of [extract_posts]. *)
Definition extract_posts_try (pg : page) (self_target_posts : option Z)
  : exn frame (list post) :=
  modify (set_posts []) ;;
  let target_posts := getattr_target_posts self_target_posts in
  for_each slot_range (primary_slot pg target_posts) ;;
  s <- get ;;
  (if (Z.of_nat (length (posts s)) <? target_posts)%Z
   then for_each fallback_selectors (fallback_selector pg target_posts)
   else ret tt) ;;
  s <- get ;;
  ret (posts s).

(** [extract_posts], with its function-level handler [return []]. *)
Definition extract_posts_m (pg : page) (self_target_posts : option Z)
  : exn frame (list post) :=
  try_except (extract_posts_try pg self_target_posts) (ret []).

(** The store at entry: [posts = []]; the four strings are assigned at
    the head of every iteration before they are read. *)
Definition frame0 : frame :=
  {| posts := []; follow_text := ""; follow_count := "";
     views := ""; likes := "" |}.

(** The call [self.extract_posts()]. *)
Definition extract_posts (pg : page) (self_target_posts : option Z)
  : result (list post) :=
  snd (extract_posts_m pg self_target_posts frame0).

(** ** search_keyword *)

(** [urllib.parse.quote(keyword, safe='')]: the text is encoded in UTF-8,
    the bytes of [A-Za-z0-9_.-~] are kept and every other byte becomes
    [%XX] in upper-case hexadecimal. *)
Definition utf8 (c : ascii) : list nat :=
  let n := nat_of_ascii c in
  if (n <? 128)%nat then [n] else [192 + n / 64; 128 + n mod 64]%nat.

Definition always_safe (n : nat) : bool :=
  ((65 <=? n) && (n <=? 90) || (97 <=? n) && (n <=? 122)
   || (48 <=? n) && (n <=? 57)
   || (n =? 95) || (n =? 46) || (n =? 45) || (n =? 126))%nat.

Definition hex_digit (n : nat) : ascii :=
  if (n <? 10)%nat then ascii_of_nat (48 + n) else ascii_of_nat (55 + n).

Definition quote_byte (n : nat) : string :=
  if always_safe n then String (ascii_of_nat n) ""
  else String "%" (String (hex_digit (n / 16))
                     (String (hex_digit (n mod 16)) "")).

Fixpoint quote (keyword : string) : string :=
  match keyword with
  | EmptyString => EmptyString
  | String c rest =>
      String.concat "" (map quote_byte (utf8 c)) ++ quote rest
  end.

(** The browser page over one search: the answers of the calls
    [search_keyword] makes, in the order it makes them.  [evaluate k] is
    the scroll directive of iteration [k]; [page_at k] is the page as the
    counting pass of iteration [k] sees it; [final_page] is the page as
    the final extraction sees it. *)
Record browser : Type := {
  goto : string -> result unit;
  page_content : result string;
  wait_for_timeout : result unit;
  evaluate : nat -> result unit;
  page_at : nat -> page;
  page_title : result string;
  page_content_after : result string;
  final_page : page
}.

(** The interactions with the page, as [search_keyword] issues them. *)
Inductive event : Type :=
| EvGoto (search_url : string)
| EvContent
| EvScroll (scroll_count : nat)
| EvCount (scroll_count : nat)
| EvExtract.

(** The counters of the scroll loop, and the interactions issued so far. *)
Record search_frame : Type := {
  scroll_count : nat;
  previous_count : nat;
  no_new_posts_count : nat;
  trace : list event
}.

Definition set_scroll_count (v : nat) (s : search_frame) : search_frame :=
  {| scroll_count := v; previous_count := previous_count s;
     no_new_posts_count := no_new_posts_count s; trace := trace s |}.
Definition set_previous_count (v : nat) (s : search_frame) : search_frame :=
  {| scroll_count := scroll_count s; previous_count := v;
     no_new_posts_count := no_new_posts_count s; trace := trace s |}.
Definition set_no_new_posts_count (v : nat) (s : search_frame)
  : search_frame :=
  {| scroll_count := scroll_count s; previous_count := previous_count s;
     no_new_posts_count := v; trace := trace s |}.
Definition log (e : event) (s : search_frame) : search_frame :=
  {| scroll_count := scroll_count s; previous_count := previous_count s;
     no_new_posts_count := no_new_posts_count s;
     trace := (trace s ++ [e])%list |}.
Definition emit (e : event) : exn search_frame unit := modify (log e).

Definition max_scrolls : nat := 50.

(** How the [while] loop was left: by the first [break] (target reached),
    by the second [break] (five scrolls in a row without a new post), or by
    its condition [scroll_count < max_scrolls] becoming false.  [FuelOut]
    is the recursion bound of the model running out. *)
Inductive loop_exit : Type :=
| TargetReached
| Stagnated
| BudgetSpent
| FuelOut.

(** [while scroll_count < max_scrolls: ...] *)
Fixpoint scroll_loop (b : browser) (target_posts : Z) (fuel : nat)
  : exn search_frame loop_exit :=
  s <- get ;;
  if (scroll_count s <? max_scrolls)%nat then
    match fuel with
    | O => ret FuelOut
    | S fuel' =>
        modify (set_scroll_count (scroll_count s + 1)) ;;
        let k := (scroll_count s + 1)%nat in
        emit (EvScroll k) ;;
        call (evaluate b k) ;;
        emit (EvCount k) ;;
        current_posts <- call (extract_posts_for_count (page_at b k)) ;;
        let current_count := length current_posts in
        if (Z.of_nat current_count >=? target_posts)%Z then ret TargetReached
        else
          s <- get ;;
          (if (previous_count s <? current_count)%nat
           then modify (set_no_new_posts_count 0)
           else modify (set_no_new_posts_count (no_new_posts_count s + 1))) ;;
          s <- get ;;
          if (5 <=? no_new_posts_count s)%nat then ret Stagnated
          else
            modify (set_previous_count current_count) ;;
            scroll_loop b target_posts fuel'
    end
  else ret BudgetSpent.

(** The test on the page text after navigation. *)
Definition no_results (page_content : string) : bool :=
  contains "no results" (lower page_content)
  || contains "no answers" (lower page_content).

(** The body of the function-level [try] of [search_keyword]. *)
Definition search_keyword_try (b : browser) (keyword : string)
  (target_posts : Z) : exn search_frame (list post) :=
  let encoded_keyword := quote keyword in
  let search_url := "https://www.quora.com/search?q=" ++ encoded_keyword in
  emit (EvGoto search_url) ;;
  call (goto b search_url) ;;
  emit EvContent ;;
  content <- call (page_content b) ;;
  if no_results content then ret []
  else
    try_except (call (wait_for_timeout b)) (ret tt) ;;
    modify (set_scroll_count 0) ;;
    modify (set_previous_count 0) ;;
    modify (set_no_new_posts_count 0) ;;
    scroll_loop b target_posts max_scrolls ;;
    try_except
      (call (page_title b) ;; call (page_content_after b) ;; ret tt)
      (ret tt) ;;
    emit EvExtract ;;
    posts <- call (extract_posts (final_page b) (Some target_posts)) ;;
    ret posts.

(** [search_keyword], with its function-level handler [return []]. *)
Definition search_keyword_m (b : browser) (keyword : string)
  (target_posts : Z) : exn search_frame (list post) :=
  try_except (search_keyword_try b keyword target_posts) (ret []).

Definition search0 : search_frame :=
  {| scroll_count := 0; previous_count := 0; no_new_posts_count := 0;
     trace := [] |}.

(** The call [self.search_keyword(keyword, target_posts)]. *)
Definition search_keyword (b : browser) (keyword : string) (target_posts : Z)
  : result (list post) :=
  snd (search_keyword_m b keyword target_posts search0).

(** ** scrape_posts *)

(** [l[:n]] for an integer [n]: a negative [n] counts from the end. *)
Definition slice_to {A} (l : list A) (n : Z) : list A :=
  if (n <? 0)%Z
  then firstn (Z.to_nat (Z.of_nat (length l) + n)) l
  else firstn (Z.to_nat n) l.

Definition scrape_posts_m (b : browser) (keyword : string) (max_posts : Z)
  : exn search_frame (list post) :=
  try_except
    (posts <- search_keyword_m b keyword max_posts ;;
     match posts with
     | [] => ret []
     | _ => ret (slice_to posts max_posts)
     end)
    (ret []).

(** The call [self.scrape_posts(keyword, max_posts)]. *)
Definition scrape_posts (b : browser) (keyword : string) (max_posts : Z)
  : result (list post) :=
  snd (scrape_posts_m b keyword max_posts search0).

(** * Predicates of the specification *)

(** The location [sel] of page [pg] holds an element whose stripped text
    is [v]. *)
Definition exposes (pg : page) (sel v : string) : Prop :=
  exists e text,
    query_selector pg sel = Ok (Some e) /\ inner_text e = Ok text
    /\ strip text = v.

(** What the follow fields of a record emitted at slot [i] hold, by
    whether pattern 1 matched there. *)
Definition follow_fields (pg : page) (i : nat) (link1 : option element)
  (p : post) : Prop :=
  match link1 with
  | None => Post.follow_text p = Some "" /\ Post.follow_count p = Some ""
  | Some _ =>
      exists ft fc,
        Post.follow_text p = Some ft /\ Post.follow_count p = Some fc
        /\ ft <> "" /\ fc <> ""
        /\ (ft = "0" \/ exposes pg (follow_selector i) ft
            \/ exposes pg (follow_selector2 i) ft)
        /\ (fc = "0" \/ exposes pg (follow_count_selector i) fc
            \/ exposes pg (follow_count_selector2 i) fc)
  end.

(** What the view and like fields of a record emitted at slot [i] hold, by
    whether pattern 2 matched there. *)
Definition view_fields (pg : page) (i : nat) (link2 : option element)
  (p : post) : Prop :=
  match link2 with
  | None => Post.views p = Some "" /\ Post.likes p = Some ""
  | Some _ =>
      exists v l,
        Post.views p = Some v /\ Post.likes p = Some l
        /\ (query_selector pg (more_selector i) = Ok None ->
            v = "" /\ l = "")
        /\ (query_selector pg (more_selector i) <> Ok None ->
            (v = "0" \/ exposes pg (views_selector i) v)
            /\ (l = "0" \/ exposes pg (likes_selector i) l))
  end.

(** Record [p] is what the primary pass emits at slot [i] of page [pg]. *)
Definition slot_emits (pg : page) (i : nat) (p : post) : Prop :=
  exists link1 link2 link href text,
    query_selector pg (selector1 i) = Ok link1
    /\ query_selector pg (selector2 i) = Ok link2
    /\ choose_link link1 link2 = Some link
    /\ get_attribute link "href" = Ok href
    /\ inner_text link = Ok text
    /\ valid_title (strip text) = true
    /\ Post.title p = strip text
    /\ Post.url p = resolve_url href
    /\ Post.content p = ""
    /\ follow_fields pg i link1 p
    /\ view_fields pg i link2 p.

(** The probe of slot [i] itself fails. *)
Definition probe_raises (pg : page) (i : nat) : Prop :=
  query_selector pg (selector1 i) = Raise
  \/ query_selector pg (selector2 i) = Raise.

(** Record [p] is what the fallback pass emits for a link of page [pg]. *)
Definition fallback_emits (pg : page) (p : post) : Prop :=
  exists selector links link href text,
    In selector fallback_selectors
    /\ query_selector_all pg selector = Ok links
    /\ In link links
    /\ get_attribute link "href" = Ok href
    /\ inner_text link = Ok text
    /\ valid_title (strip text) = true
    /\ p = fallback_post (strip text) (resolve_url href).

(** Record [p] is emitted for page [pg]: at a slot of the primary pass, or
    for a link of the fallback pass. *)
Definition emitted (pg : page) (p : post) : Prop :=
  (exists i, In i slot_range /\ slot_emits pg i p) \/ fallback_emits pg p.

(** [len(current_posts)] at iteration [k] of the scroll loop. *)
Definition count_at (b : browser) (k : nat) : nat :=
  match extract_posts_for_count (page_at b k) with
  | Ok l => length l
  | Raise => 0
  end.

(** The address [search_keyword] navigates to. *)
Definition search_url (keyword : string) : string :=
  "https://www.quora.com/search?q=" ++ quote keyword.

(** The counters as the three assignments before the [while] loop leave
    them. *)
Definition enter_loop (s : search_frame) : search_frame :=
  set_no_new_posts_count 0 (set_previous_count 0 (set_scroll_count 0 s)).

(** [previous_count] after [j] scrolls: 0 before the first scroll, the
    measurement of scroll [j] afterwards. *)
Definition measured (b : browser) (j : nat) : nat :=
  match j with
  | O => 0
  | S _ => count_at b j
  end.

(** The meaning of the streak counter at the head of an iteration: it is
    below 5, and the last [no_new_posts_count] measurements did not grow. *)
Definition streak_inv (b : browser) (s : search_frame) : Prop :=
  previous_count s = measured b (scroll_count s)
  /\ (no_new_posts_count s <= scroll_count s)%nat
  /\ (no_new_posts_count s < 5)%nat
  /\ forall j,
       (scroll_count s - no_new_posts_count s < j <= scroll_count s)%nat ->
       (measured b j <= measured b (j - 1))%nat.

(** An absolute link, in the words of the specification: a reference that
    starts with a scheme, a letter followed by letters, digits, [+], [-]
    or [.] up to a colon. *)
Definition is_alpha (c : ascii) : bool :=
  let n := nat_of_ascii c in
  ((65 <=? n) && (n <=? 90) || (97 <=? n) && (n <=? 122))%nat.
Definition is_scheme_char (c : ascii) : bool :=
  let n := nat_of_ascii c in
  (is_alpha c || (48 <=? n) && (n <=? 57)
   || (n =? 43) || (n =? 45) || (n =? 46))%nat.
Fixpoint scheme_rest (s : string) : bool :=
  match s with
  | EmptyString => false
  | String c s' =>
      if (nat_of_ascii c =? 58)%nat then true
      else if is_scheme_char c then scheme_rest s' else false
  end.
Definition is_absolute (s : string) : bool :=
  match s with
  | EmptyString => false
  | String c s' => is_alpha c && scheme_rest s'
  end.

(** * Sample pages *)

Definition link_element (text : string) (href : option string) : element :=
  {| inner_text := Ok text;
     get_attribute := fun name =>
       if String.eqb name "href" then Ok href else Ok None;
     click := Ok tt |}.

Definition text_element (text : string) : element :=
  {| inner_text := Ok text; get_attribute := fun _ => Ok None;
     click := Ok tt |}.

(** A page given by the finitely many selectors that match. *)
Fixpoint lookup {A} (sel : string) (l : list (string * A)) : option A :=
  match l with
  | [] => None
  | (k, v) :: l' => if String.eqb sel k then Some v else lookup sel l'
  end.

Definition page_of (l : list (string * element)) : page :=
  {| query_selector := fun sel => Ok (lookup sel l);
     query_selector_all := fun _ => Ok [] |}.

(** A page whose slots [1 .. n] each hold a pattern-1 link with a valid
    title. *)
Definition page_with (n : nat) : page :=
  page_of
    (map (fun i =>
            (selector1 i,
             link_element ("Question number " ++ str_of_nat i)
               (Some ("/question/" ++ str_of_nat i))))
       (seq 1 n)).

(** A browser whose navigation and scrolls succeed and whose counting
    pass at iteration [k] sees as many records as the [k]-th number of
    [counts]; the final extraction sees the page of the last one. *)
Definition browser_of_counts (counts : list nat) : browser :=
  {| goto := fun _ => Ok tt;
     page_content := Ok "<html><body>results</body></html>";
     wait_for_timeout := Ok tt;
     evaluate := fun _ => Ok tt;
     page_at := fun k => page_with (nth (k - 1) counts 0);
     page_title := Ok "Search";
     page_content_after := Ok "<html><body>results</body></html>";
     final_page := page_with (last counts 0) |}.

(** A browser whose page reports that the search found nothing. *)
Definition browser_no_results : browser :=
  {| goto := fun _ => Ok tt;
     page_content := Ok "<html><body>No results found</body></html>";
     wait_for_timeout := Ok tt;
     evaluate := fun _ => Ok tt;
     page_at := fun _ => page_with 3;
     page_title := Ok "Search";
     page_content_after := Ok "";
     final_page := page_with 3 |}.

(** The only link of the page is in slot 100, respectively slot 99. *)
Definition page_slot100 : page :=
  page_of [(selector1 100,
            link_element "A question in the hundredth slot"
              (Some "/question/Hundredth"))].
Definition page_slot99 : page :=
  page_of [(selector1 99,
            link_element "A question in the hundredth slot"
              (Some "/question/Hundredth"))].

(** Slot 1 matches both patterns, and the "more" control and the view and
    like counts are present. *)
Definition page_both : page :=
  page_of
    [ (selector1 1,
       link_element "What is ACoS in Amazon advertising?"
         (Some "/What-is-ACoS-in-Amazon-advertising"));
      (selector2 1,
       link_element "An answer about ACoS on Amazon" (Some "/answer/1"));
      (more_selector 1, text_element "(more)");
      (views_selector 1, text_element " 1.2K views ");
      (likes_selector 1, text_element "34");
      (follow_selector 1, text_element "Follow");
      (follow_count_selector 1, text_element "7") ].

(** Slot 1 matches pattern 1 only and exposes no metrics at all. *)
Definition page_pattern1 : page :=
  page_of
    [ (selector1 1,
       link_element "What is ACoS in Amazon advertising?"
         (Some "/What-is-ACoS-in-Amazon-advertising")) ].

(** Slot 1 matches pattern 2 only; its link is relative without a leading
    slash. *)
Definition page_relative : page :=
  page_of
    [ (selector2 1,
       link_element "An answer about ACoS on Amazon"
         (Some "question/Example")) ].

(** Slot 1 holds a valid link; the probe of slot 2 raises, respectively
    finds nothing. *)
Definition page_probe_raises : page :=
  {| query_selector := fun sel =>
       if String.eqb sel (selector1 2) then Raise
       else query_selector page_pattern1 sel;
     query_selector_all := fun _ => Ok [] |}.
Definition page_probe_absent : page :=
  {| query_selector := fun sel =>
       if String.eqb sel (selector1 2) then Ok None
       else query_selector page_pattern1 sel;
     query_selector_all := fun _ => Ok [] |}.

(** * Properties *)

(** ** Tactics for blocks in [exn] *)

Ltac exn_unfold :=
  unfold bind, ret, call, get, modify, try_except in *.

Ltac break_match_hyp :=
  match goal with
  | H : context [match ?x with _ => _ end] |- _ => destruct x eqn:?
  end.

Ltac break_match_goal :=
  match goal with
  | |- context [match ?x with _ => _ end] => destruct x eqn:?
  end.

Ltac pair_inv :=
  repeat match goal with
  | H : (_, _) = (_, _) |- _ => inversion H; clear H; subst
  end.

(** ** The field blocks *)

Lemma truthy_false (s : string) : truthy s = false -> s = "".
Proof. destruct s; [reflexivity | discriminate]. Qed.

Lemma truthy_true (s : string) : truthy s = true -> s <> "".
Proof. destruct s; [discriminate | intros _ H; discriminate H]. Qed.

Lemma read_views_likes_spec (pg : page) (i : nat) (s s' : frame)
  (r : result unit) :
  views s = "" -> likes s = "" ->
  read_views_likes pg i s = (s', r) ->
  r = Ok tt /\ posts s' = posts s /\ follow_text s' = follow_text s
  /\ follow_count s' = follow_count s
  /\ (query_selector pg (more_selector i) = Ok None ->
      views s' = "" /\ likes s' = "")
  /\ (query_selector pg (more_selector i) <> Ok None ->
      (views s' = "0" \/ exposes pg (views_selector i) (views s'))
      /\ (likes s' = "0" \/ exposes pg (likes_selector i) (likes s'))).
Proof.
  intros Hv Hl E. destruct s as [p ft fc v l]. simpl in Hv, Hl. subst v l.
  unfold read_views_likes, default_views, default_likes in E.
  generalize dependent (more_selector i).
  generalize dependent (views_selector i).
  generalize dependent (likes_selector i).
  intros q3 q2 q1 E.
  exn_unfold. simpl in E.
  repeat (break_match_hyp; simpl in *; pair_inv; try discriminate);
    repeat match goal with
    | H : truthy _ = false |- _ => apply truthy_false in H; try rewrite H in *
    end;
    simpl;
    (split; [reflexivity |]); (split; [reflexivity |]);
    (split; [reflexivity |]); (split; [reflexivity |]);
    (split; [intros Hq; try discriminate Hq; auto
            | intros Hq; try (exfalso; apply Hq; reflexivity);
              split; first [ left; reflexivity
                           | right; unfold exposes; solve [eauto 8] ] ]).
Qed.

Lemma read_follow_spec (pg : page) (i : nat) (s s' : frame)
  (r : result unit) :
  follow_text s = "" -> follow_count s = "" ->
  read_follow pg i s = (s', r) ->
  r = Ok tt /\ posts s' = posts s /\ views s' = views s
  /\ likes s' = likes s
  /\ follow_text s' <> "" /\ follow_count s' <> ""
  /\ (follow_text s' = "0"
      \/ exposes pg (follow_selector i) (follow_text s')
      \/ exposes pg (follow_selector2 i) (follow_text s'))
  /\ (follow_count s' = "0"
      \/ exposes pg (follow_count_selector i) (follow_count s')
      \/ exposes pg (follow_count_selector2 i) (follow_count s')).
Proof.
  intros Hv Hl E. destruct s as [p ft fc v l]. simpl in Hv, Hl. subst ft fc.
  unfold read_follow, default_follow_text, default_follow_count in E.
  generalize dependent (follow_selector i).
  generalize dependent (follow_count_selector i).
  generalize dependent (follow_selector2 i).
  generalize dependent (follow_count_selector2 i).
  intros q4 q3 q2 q1 E.
  exn_unfold. simpl in E.
  repeat (break_match_hyp; cbn in *; pair_inv; try discriminate);
    repeat match goal with
    | H : truthy _ = true |- _ => apply truthy_true in H
    end;
    simpl;
    (split; [reflexivity |]); (split; [reflexivity |]);
    (split; [reflexivity |]); (split; [reflexivity |]);
    (split; [first [assumption | discriminate] |]);
    (split; [first [assumption | discriminate] |]);
    split;
    first [ left; reflexivity
          | right; left; unfold exposes; solve [eauto 8]
          | right; right; unfold exposes; solve [eauto 8] ].
Qed.

(** ** One slot of the primary pass *)

Arguments selector1 : simpl never.
Arguments selector2 : simpl never.
Arguments more_selector : simpl never.
Arguments views_selector : simpl never.
Arguments likes_selector : simpl never.
Arguments follow_selector : simpl never.
Arguments follow_count_selector : simpl never.
Arguments follow_selector2 : simpl never.
Arguments follow_count_selector2 : simpl never.

(** The part of an iteration before the link is chosen. *)
Lemma views_stage (pg : page) (i : nat) (link2 : option element)
  (s s' : frame) (r : result unit) :
  match link2 with
  | Some _ => read_views_likes pg i
  | None => ret tt
  end (set_likes "" (set_views ""
        (set_follow_count "" (set_follow_text "" s)))) = (s', r) ->
  r = Ok tt /\ posts s' = posts s /\ follow_text s' = ""
  /\ follow_count s' = ""
  /\ view_fields pg i link2 (primary_post "" "" s').
Proof.
  intros E. destruct link2 as [l2|].
  - apply read_views_likes_spec in E; try reflexivity.
    destruct E as (-> & Hp & Hft & Hfc & Hn & Hs).
    do 4 (split; [ first [ assumption | reflexivity ] |]).
    simpl. exists (views s'), (likes s'). auto.
  - unfold ret in E. inversion E; subst. simpl. repeat split.
Qed.

Lemma follow_stage (pg : page) (i : nat) (link1 : option element)
  (s s' : frame) (r : result unit) :
  follow_text s = "" -> follow_count s = "" ->
  match link1 with
  | Some _ => read_follow pg i
  | None => ret tt
  end s = (s', r) ->
  r = Ok tt /\ posts s' = posts s /\ views s' = views s
  /\ likes s' = likes s
  /\ follow_fields pg i link1 (primary_post "" "" s').
Proof.
  intros Hft Hfc E. destruct link1 as [l1|].
  - apply read_follow_spec in E; try assumption.
    destruct E as (-> & Hp & Hv & Hl & H1 & H2 & H3 & H4).
    do 4 (split; [ first [ assumption | reflexivity ] |]).
    simpl. exists (follow_text s'), (follow_count s').
    repeat (split; [ first [ assumption | reflexivity ] |]). assumption.
  - unfold ret in E. inversion E; subst. simpl. rewrite Hft, Hfc.
    repeat split.
Qed.

Lemma primary_slot_spec (pg : page) (target_posts : Z) (i : nat)
  (s s' : frame) (r : result flow) :
  primary_slot pg target_posts i s = (s', r) ->
  (r = Raise /\ posts s' = posts s /\ probe_raises pg i)
  \/ (r = Ok Next /\ posts s' = posts s /\ ~ probe_raises pg i)
  \/ (exists p,
        posts s' = (posts s ++ [p])%list /\ slot_emits pg i p
        /\ ~ probe_raises pg i
        /\ r = Ok (if reached s' target_posts then Break else Next)).
Proof.
  unfold primary_slot, probe_raises. intros E. exn_unfold.
  destruct (query_selector pg (selector1 i)) as [link1|] eqn:Q1;
    [| inversion E; subst; auto ].
  destruct (query_selector pg (selector2 i)) as [link2|] eqn:Q2;
    [| inversion E; subst; auto ].
  assert (Hnp : ~ (Ok link1 = @Raise (option element)
                   \/ Ok link2 = @Raise (option element)))
    by (intros [H | H]; discriminate H).
  simpl in E.
  match type of E with
  | context [match ?m ?s0 with _ => _ end] =>
      match m with
      | match link2 with _ => _ end => destruct (m s0) as [s1 r1] eqn:EV
      end
  end.
  apply views_stage in EV. destruct EV as (-> & Hp1 & Hft1 & Hfc1 & HV).
  destruct (choose_link link1 link2) as [link|] eqn:CL;
    [| inversion E; subst; auto ].
  destruct (get_attribute link "href") as [href|] eqn:GA;
    [| inversion E; subst; auto ].
  destruct (inner_text link) as [text|] eqn:IT;
    [| inversion E; subst; auto ].
  destruct (valid_title (strip text)) eqn:VT;
    [| inversion E; subst; auto ].
  match type of E with
  | context [match ?m ?s0 with _ => _ end] =>
      match m with
      | match link1 with _ => _ end => destruct (m s0) as [s2 r2] eqn:EF
      end
  end.
  apply follow_stage in EF; try assumption.
  destruct EF as (-> & Hp2 & Hv2 & Hl2 & HF).
  match type of E with
  | context [if ?c then _ else _] => destruct c eqn:RC
  end; inversion E; subst; clear E;
    (right; right; exists (primary_post (strip text) (resolve_url href) s2);
     (split; [ simpl; congruence |]);
     (split; [| split; [ assumption | rewrite RC; reflexivity ] ]);
     exists link1, link2, link, href, text;
     do 9 (split; [ first [ assumption | reflexivity ] |]);
     split; [ exact HF |];
     destruct link2; simpl in *; [| rewrite Hv2, Hl2; assumption ];
     destruct HV as (v & l & Ev & El & Hn & Hs);
     exists v, l; rewrite Hv2, Hl2; auto).
Qed.

(** ** Loops *)

(** Invariant rule for [for_each]: [I] holds at the head of every
    iteration, [Q] holds of the store and outcome the loop is left with. *)
Lemma for_each_ind {S X} (I : S -> Prop) (Q : S -> result unit -> Prop)
  (xs : list X) (body : X -> exn S flow) :
  (forall s, I s -> Q s (Ok tt)) ->
  (forall x s s' r, In x xs -> I s -> body x s = (s', r) ->
     match r with
     | Ok Next => I s'
     | Ok Break => Q s' (Ok tt)
     | Raise => Q s' Raise
     end) ->
  forall s s' r, I s -> for_each xs body s = (s', r) -> Q s' r.
Proof.
  intros Hend. induction xs as [| x xs IH]; intros Hbody s s' r Hs E.
  - simpl in E. unfold ret in E. inversion E; subst. auto.
  - simpl in E. unfold bind in E.
    destruct (body x s) as [s1 [f |]] eqn:B.
    + specialize (Hbody x s s1 (Ok f) (or_introl eq_refl) Hs B) as Hb.
      destruct f.
      * eapply IH; eauto. intros. eapply Hbody; eauto. right. assumption.
      * unfold ret in E. inversion E; subst. assumption.
    + specialize (Hbody x s s1 Raise (or_introl eq_refl) Hs B) as Hb.
      inversion E; subst. assumption.
Qed.

(** ** The fallback pass *)

Lemma fallback_link_spec (target_posts : Z) (link : element)
  (s s' : frame) (r : result flow) :
  fallback_link target_posts link s = (s', r) ->
  (r = Ok Break /\ s' = s /\ reached s target_posts = true)
  \/ (r = Ok Next /\ s' = s /\ reached s target_posts = false)
  \/ (r = Ok Next /\ reached s target_posts = false
      /\ exists href text,
           get_attribute link "href" = Ok href
           /\ inner_text link = Ok text
           /\ valid_title (strip text) = true
           /\ s' = append_post
                     (fallback_post (strip text) (resolve_url href)) s).
Proof.
  unfold fallback_link. exn_unfold. intros E.
  destruct (reached s target_posts) eqn:R; [ inversion E; auto |].
  destruct (get_attribute link "href") as [href |] eqn:GA;
    [| inversion E; auto ].
  destruct (inner_text link) as [text |] eqn:IT; [| inversion E; auto ].
  destruct (valid_title (strip text)) eqn:VT; inversion E; subst; auto.
  right. right. repeat split. exists href, text. auto.
Qed.

Section FallbackInvariant.
Variable pg : page.
Variable target_posts : Z.
Variable J : list post -> Prop.
Hypothesis J_append : forall l p,
  J l -> (Z.of_nat (length l) < target_posts)%Z ->
  fallback_emits pg p -> J (l ++ [p])%list.

Lemma reached_false (s : frame) :
  reached s target_posts = false ->
  (Z.of_nat (length (posts s)) < target_posts)%Z.
Proof.
  unfold reached. rewrite Z.geb_leb. intros H.
  apply Z.leb_gt in H. exact H.
Qed.

Lemma fallback_links_inv (selector : string) (links all : list element) :
  In selector fallback_selectors ->
  query_selector_all pg selector = Ok all ->
  incl links all ->
  forall s s' r,
    J (posts s) ->
    for_each links (fallback_link target_posts) s = (s', r) ->
    r = Ok tt /\ J (posts s').
Proof.
  intros Hsel Hq Hincl s s' r Hs E.
  apply (for_each_ind (fun s => J (posts s))
           (fun s r => r = Ok tt /\ J (posts s))) in E; auto.
  intros x s0 s1 r1 Hx H0 B.
  apply fallback_link_spec in B.
  destruct B as [(-> & -> & _) | [(-> & -> & _) | (-> & R & B)]]; auto.
  destruct B as (href & text & GA & IT & VT & ->).
  simpl. apply J_append; auto using reached_false.
  exists selector, all, x, href, text. auto 10.
Qed.

Lemma fallback_selector_inv (selector : string) (s s' : frame)
  (r : result flow) :
  In selector fallback_selectors ->
  J (posts s) ->
  fallback_selector pg target_posts selector s = (s', r) ->
  r <> Raise /\ J (posts s').
Proof.
  unfold fallback_selector. exn_unfold. intros Hsel Hs E.
  destruct (reached s target_posts); [ inversion E; subst |].
  { split; [ discriminate | assumption ]. }
  destruct (query_selector_all pg selector) as [links |] eqn:Hq.
  - destruct (for_each links (fallback_link target_posts) s)
      as [s1 r1] eqn:F.
    eapply fallback_links_inv in F; eauto using incl_refl.
    destruct F as (-> & F). inversion E; subst.
    split; [ discriminate | assumption ].
  - inversion E; subst. split; [ discriminate | assumption ].
Qed.

Lemma fallback_pass_inv (s s' : frame) (r : result unit) :
  J (posts s) ->
  for_each fallback_selectors (fallback_selector pg target_posts) s
  = (s', r) ->
  r = Ok tt /\ J (posts s').
Proof.
  intros Hs E.
  apply (for_each_ind (fun s => J (posts s))
           (fun s r => r = Ok tt /\ J (posts s))) in E; auto.
  intros x s0 s1 r1 Hx H0 B.
  apply fallback_selector_inv in B; auto. destruct B as (Hr & HJ).
  destruct r1 as [[|]|]; auto. contradiction.
Qed.
End FallbackInvariant.

(** ** The whole of [extract_posts] *)

(** The two passes of [extract_posts_try], one after the other. *)
Lemma extract_posts_try_eq (pg : page) (self_target_posts : option Z)
  (s : frame) :
  extract_posts_try pg self_target_posts s =
  let target_posts := getattr_target_posts self_target_posts in
  match for_each slot_range (primary_slot pg target_posts) (set_posts [] s)
  with
  | (s1, Ok _) =>
      if (Z.of_nat (length (posts s1)) <? target_posts)%Z then
        match
          for_each fallback_selectors (fallback_selector pg target_posts) s1
        with
        | (s2, Ok _) => (s2, Ok (posts s2))
        | (s2, Raise) => (s2, Raise)
        end
      else (s1, Ok (posts s1))
  | (s1, Raise) => (s1, Raise)
  end.
Proof.
  unfold extract_posts_try. exn_unfold. cbv zeta.
  destruct (for_each slot_range _ _) as [s1 [u |]]; [| reflexivity ].
  destruct (_ <? _)%Z; [| reflexivity ].
  destruct (for_each fallback_selectors _ _) as [s2 [u' |]]; reflexivity.
Qed.

Lemma Forall_snoc {A} (P : A -> Prop) (l : list A) (a : A) :
  Forall P l -> P a -> Forall P (l ++ [a]).
Proof. intros Hl Ha. apply Forall_app. split; auto. Qed.

Lemma primary_pass_records (pg : page) (target_posts : Z) (s s' : frame)
  (r : result unit) :
  Forall (emitted pg) (posts s) ->
  for_each slot_range (primary_slot pg target_posts) s = (s', r) ->
  Forall (emitted pg) (posts s').
Proof.
  intros Hs E.
  apply (for_each_ind (fun s => Forall (emitted pg) (posts s))
           (fun s _ => Forall (emitted pg) (posts s))) in E; auto.
  intros i s0 s1 r1 Hi H0 B. apply primary_slot_spec in B.
  destruct B as [(-> & Hp & _) | [(-> & Hp & _) | (p & Hp & Hem & _ & ->)]].
  - rewrite Hp. assumption.
  - rewrite Hp. assumption.
  - assert (Forall (emitted pg) (posts s1)).
    { rewrite Hp. apply Forall_snoc; auto. left. exists i. auto. }
    destruct (reached s1 target_posts); assumption.
Qed.

(** Every record [extract_posts] returns was emitted at a slot whose reads
    succeeded or for a fallback link whose reads succeeded. *)
Lemma extract_posts_records (pg : page) (self_target_posts : option Z)
  (l : list post) :
  extract_posts pg self_target_posts = Ok l -> Forall (emitted pg) l.
Proof.
  unfold extract_posts, extract_posts_m, try_except.
  rewrite extract_posts_try_eq. cbv zeta.
  destruct (for_each slot_range _ _) as [s1 [u |]] eqn:P1;
    [| simpl; intros H; inversion H; constructor ].
  apply primary_pass_records in P1; [| constructor ].
  destruct (_ <? _)%Z; [| simpl; intros H; inversion H; subst; assumption ].
  destruct (for_each fallback_selectors _ _) as [s2 [u' |]] eqn:P2;
    [| simpl; intros H; inversion H; constructor ].
  apply (fallback_pass_inv pg _ (Forall (emitted pg))) in P2; auto.
  - simpl. intros H; inversion H; subst. apply P2.
  - intros l0 p Hl _ Hp. apply Forall_snoc; auto. right. assumption.
Qed.

(** The primary pass leaves at most [target_posts] records when it starts
    below a positive target. *)
Lemma primary_pass_bound (pg : page) (target_posts : Z) (s s' : frame)
  (r : result unit) :
  (Z.of_nat (length (posts s)) < target_posts)%Z ->
  for_each slot_range (primary_slot pg target_posts) s = (s', r) ->
  (Z.of_nat (length (posts s')) <= target_posts)%Z.
Proof.
  intros Hs E.
  apply (for_each_ind
           (fun s => (Z.of_nat (length (posts s)) < target_posts)%Z)
           (fun s _ => (Z.of_nat (length (posts s)) <= target_posts)%Z))
    in E; auto; [ intros; lia |].
  intros i s0 s1 r1 Hi H0 B. apply primary_slot_spec in B.
  destruct B as [(-> & Hp & _) | [(-> & Hp & _) | (p & Hp & _ & _ & ->)]].
  - rewrite Hp. lia.
  - rewrite Hp. assumption.
  - assert (Hlen : length (posts s1) = S (length (posts s0))).
    { rewrite Hp, length_app. simpl. lia. }
    destruct (reached s1 target_posts) eqn:R.
    + lia.
    + apply reached_false in R. assumption.
Qed.

(** [extract_posts] returns at most [target_posts] records when the target
    is positive. *)
Lemma extract_posts_bound (pg : page) (self_target_posts : option Z)
  (l : list post) :
  (0 < getattr_target_posts self_target_posts)%Z ->
  extract_posts pg self_target_posts = Ok l ->
  (Z.of_nat (length l) <= getattr_target_posts self_target_posts)%Z.
Proof.
  intros Hpos.
  unfold extract_posts, extract_posts_m, try_except.
  rewrite extract_posts_try_eq. cbv zeta.
  destruct (for_each slot_range _ _) as [s1 [u |]] eqn:P1;
    [| simpl; intros H; inversion H; simpl; lia ].
  apply primary_pass_bound in P1; [| simpl; assumption ].
  destruct (_ <? _)%Z; [| simpl; intros H; inversion H; subst; assumption ].
  destruct (for_each fallback_selectors _ _) as [s2 [u' |]] eqn:P2;
    [| simpl; intros H; inversion H; simpl; lia ].
  apply (fallback_pass_inv pg _
           (fun l => (Z.of_nat (length l)
                      <= getattr_target_posts self_target_posts)%Z))
    in P2; auto.
  - simpl. intros H; inversion H; subst. apply P2.
  - intros l0 p Hl Hlt _. rewrite length_app. simpl. lia.
Qed.

(** [extract_posts] returns: it never raises to its caller. *)
Lemma extract_posts_total (pg : page) (self_target_posts : option Z) :
  exists l, extract_posts pg self_target_posts = Ok l.
Proof.
  unfold extract_posts, extract_posts_m, try_except, ret.
  destruct (extract_posts_try pg self_target_posts frame0) as [s [l |]];
    simpl; eauto.
Qed.

(** The primary pass raises only when the probe of a slot does. *)
Lemma primary_pass_no_raise (pg : page) (target_posts : Z) (s s' : frame)
  (r : result unit) :
  (forall i, In i slot_range -> ~ probe_raises pg i) ->
  for_each slot_range (primary_slot pg target_posts) s = (s', r) ->
  r = Ok tt.
Proof.
  intros Hprobe E.
  apply (for_each_ind (fun _ => True) (fun _ r => r = Ok tt)) in E; auto.
  intros i s0 s1 r1 Hi _ B. apply primary_slot_spec in B.
  destruct B as [(-> & _ & Hr) | [(-> & _) | (p & _ & _ & _ & ->)]].
  - exfalso. exact (Hprobe i Hi Hr).
  - exact I.
  - destruct (reached s1 target_posts); auto.
Qed.

(** The function-level handler of [extract_posts] is reached only when the
    probe of a slot raises. *)
Lemma extract_posts_try_no_raise (pg : page) (self_target_posts : option Z)
  (s : frame) :
  (forall i, In i slot_range -> ~ probe_raises pg i) ->
  exists s' l, extract_posts_try pg self_target_posts s = (s', Ok l).
Proof.
  intros Hprobe. rewrite extract_posts_try_eq. cbv zeta.
  destruct (for_each slot_range _ _) as [s1 r1] eqn:P1.
  apply primary_pass_no_raise in P1; auto. subst r1.
  destruct (_ <? _)%Z; [| eauto ].
  destruct (for_each fallback_selectors _ _) as [s2 r2] eqn:P2.
  apply (fallback_pass_inv pg _ (fun _ => True)) in P2; auto.
  destruct P2 as (-> & _). eauto.
Qed.

(** ** The counting pass *)

(** [extract_posts_for_count] returns: it never raises to its caller. *)
Lemma extract_posts_for_count_total (pg : page) :
  exists l, extract_posts_for_count pg = Ok l.
Proof.
  unfold extract_posts_for_count, extract_posts_for_count_m, try_except, ret.
  destruct (extract_posts_for_count_try pg []) as [s [l |]]; simpl; eauto.
Qed.

(** ** The scroll loop *)

(** One iteration of the loop, on the counters. *)
Lemma scroll_loop_step (b : browser) (target_posts : Z) (fuel : nat)
  (s : search_frame) :
  (scroll_count s < max_scrolls)%nat ->
  scroll_loop b target_posts (S fuel) s =
  let k := (scroll_count s + 1)%nat in
  match evaluate b k with
  | Raise => (log (EvScroll k) (set_scroll_count k s), Raise)
  | Ok _ =>
      let s1 := log (EvCount k) (log (EvScroll k) (set_scroll_count k s)) in
      let c := count_at b k in
      if (Z.of_nat c >=? target_posts)%Z then (s1, Ok TargetReached)
      else
        let n := if (previous_count s <? c)%nat then 0%nat
                 else (no_new_posts_count s + 1)%nat in
        if (5 <=? n)%nat then (set_no_new_posts_count n s1, Ok Stagnated)
        else
          scroll_loop b target_posts fuel
            (set_previous_count c (set_no_new_posts_count n s1))
  end.
Proof.
  intros Hlt. apply Nat.ltb_lt in Hlt.
  unfold count_at.
  destruct (extract_posts_for_count_total (page_at b (scroll_count s + 1)))
    as [l Hl].
  cbn [scroll_loop]. unfold emit. exn_unfold. rewrite Hlt. cbv zeta.
  destruct (evaluate b (scroll_count s + 1)) as [u |]; [| reflexivity ].
  rewrite Hl.
  destruct (_ >=? _)%Z; [ reflexivity |].
  cbn [previous_count no_new_posts_count log set_scroll_count].
  destruct (previous_count s <? length l)%nat;
    cbn [no_new_posts_count set_no_new_posts_count];
    destruct (5 <=? _)%nat; reflexivity.
Qed.

Lemma scroll_loop_done (b : browser) (target_posts : Z) (fuel : nat)
  (s : search_frame) :
  (max_scrolls <= scroll_count s)%nat ->
  scroll_loop b target_posts fuel s = (s, Ok BudgetSpent).
Proof.
  intros Hge. apply Nat.ltb_ge in Hge.
  destruct fuel; cbn [scroll_loop]; exn_unfold; rewrite Hge; reflexivity.
Qed.

(** The recursion bound of the model is never what ends the loop. *)
Lemma scroll_loop_fuel (b : browser) (target_posts : Z) (fuel : nat) :
  forall s s',
    (max_scrolls <= scroll_count s + fuel)%nat ->
    scroll_loop b target_posts fuel s <> (s', Ok FuelOut).
Proof.
  induction fuel as [| fuel IH]; intros s s' Hf.
  - rewrite scroll_loop_done by lia. intros H; inversion H.
  - destruct (Nat.lt_ge_cases (scroll_count s) max_scrolls) as [Hlt | Hge].
    + rewrite scroll_loop_step by assumption. cbv zeta.
      destruct (evaluate b _); [| intros H; inversion H ].
      destruct (_ >=? _)%Z; [ intros H; inversion H |].
      destruct (5 <=? _)%nat; [ intros H; inversion H |].
      apply IH. simpl. lia.
    + rewrite scroll_loop_done by assumption. intros H; inversion H.
Qed.

(** What the loop guarantees when it is left without an exception: no
    measurement before the last reached the target; the loop is left by the
    first [break] exactly when the last measurement reaches the target; it
    is left by the second [break] with a streak of at least five. *)
Lemma scroll_loop_exit (b : browser) (target_posts : Z) (fuel : nat) :
  forall s s' e,
    scroll_loop b target_posts fuel s = (s', Ok e) ->
    (scroll_count s <= scroll_count s')%nat
    /\ (forall j, (scroll_count s < j < scroll_count s')%nat ->
          (Z.of_nat (count_at b j) < target_posts)%Z)
    /\ (e = TargetReached ->
        (scroll_count s < scroll_count s')%nat
        /\ (target_posts <= Z.of_nat (count_at b (scroll_count s')))%Z)
    /\ (e = Stagnated ->
        (scroll_count s < scroll_count s')%nat
        /\ (Z.of_nat (count_at b (scroll_count s')) < target_posts)%Z
        /\ (5 <= no_new_posts_count s')%nat)
    /\ (e = BudgetSpent ->
        (max_scrolls <= scroll_count s')%nat
        /\ (scroll_count s < scroll_count s' ->
            (Z.of_nat (count_at b (scroll_count s')) < target_posts)%Z)).
Proof.
  induction fuel as [| fuel IH]; intros s s' e E.
  - destruct (Nat.lt_ge_cases (scroll_count s) max_scrolls) as [Hlt | Hge].
    + apply Nat.ltb_lt in Hlt. cbn [scroll_loop] in E. exn_unfold.
      rewrite Hlt in E. inversion E; subst.
      repeat split; try discriminate; try lia.
    + rewrite scroll_loop_done in E by assumption. inversion E; subst.
      repeat split; try discriminate; try lia.
  - destruct (Nat.lt_ge_cases (scroll_count s) max_scrolls) as [Hlt | Hge].
    + rewrite scroll_loop_step in E by assumption. cbv zeta in E.
      destruct (evaluate b _); [| inversion E ].
      destruct (_ >=? _)%Z eqn:T.
      { inversion E; subst. simpl. rewrite Z.geb_leb in T.
        apply Z.leb_le in T.
        repeat split; try discriminate; try lia. }
      rewrite Z.geb_leb in T. apply Z.leb_gt in T.
      destruct (5 <=? _)%nat eqn:N.
      { inversion E; subst. simpl. apply Nat.leb_le in N.
        repeat split; try discriminate; try lia. }
      apply IH in E. simpl in E.
      destruct E as (Hle & Hbefore & Ht & Hs & Hb).
      split; [ lia |]. split.
      { intros j Hj.
        destruct (Nat.eq_dec j (scroll_count s + 1)) as [-> | Hne];
          [ exact T | apply Hbefore; lia ]. }
      split; [ intros He; destruct (Ht He); split; [ lia | assumption ] |].
      split; [ intros He; destruct (Hs He) as (? & ? & ?);
               repeat split; [ lia | assumption | assumption ] |].
      intros He. destruct (Hb He) as (Hm & Hlast). split; [ assumption |].
      intros _.
      destruct (Nat.eq_dec (scroll_count s') (scroll_count s + 1)) as [Eq | Hne];
        [ rewrite Eq; exact T | apply Hlast; lia ].
    + rewrite scroll_loop_done in E by assumption. inversion E; subst.
      repeat split; try discriminate; try lia.
Qed.

(** ** The whole of [search_keyword] and [scrape_posts] *)

(** [search_keyword], stage by stage. *)
Lemma search_keyword_m_eq (b : browser) (keyword : string) (target_posts : Z)
  (s : search_frame) :
  search_keyword_m b keyword target_posts s =
  let s1 := log (EvGoto (search_url keyword)) s in
  match goto b (search_url keyword) with
  | Raise => (s1, Ok [])
  | Ok _ =>
      let s2 := log EvContent s1 in
      match page_content b with
      | Raise => (s2, Ok [])
      | Ok content =>
          if no_results content then (s2, Ok [])
          else
            match scroll_loop b target_posts max_scrolls (enter_loop s2) with
            | (s3, Raise) => (s3, Ok [])
            | (s3, Ok _) =>
                match extract_posts (final_page b) (Some target_posts) with
                | Ok l => (log EvExtract s3, Ok l)
                | Raise => (log EvExtract s3, Ok [])
                end
            end
      end
  end.
Proof.
  unfold search_keyword_m, search_keyword_try, search_url, enter_loop, emit.
  exn_unfold. cbv zeta.
  destruct (goto b _); [| reflexivity ].
  destruct (page_content b) as [content |]; [| reflexivity ].
  destruct (no_results content); [ reflexivity |].
  destruct (wait_for_timeout b);
    (destruct (scroll_loop b target_posts max_scrolls _) as [s3 [e |]];
     [| reflexivity ];
     destruct (page_title b); destruct (page_content_after b);
     destruct (extract_posts (final_page b) (Some target_posts));
     reflexivity).
Qed.

(** [search_keyword] returns: it never raises, and what it returns is the
    empty list or what the final [extract_posts] returned. *)
Lemma search_keyword_m_result (b : browser) (keyword : string)
  (target_posts : Z) (s : search_frame) :
  exists s' l,
    search_keyword_m b keyword target_posts s = (s', Ok l)
    /\ (l = [] \/ extract_posts (final_page b) (Some target_posts) = Ok l).
Proof.
  rewrite search_keyword_m_eq. cbv zeta.
  destruct (goto b _); [| eauto ].
  destruct (page_content b) as [content |]; [| eauto ].
  destruct (no_results content); [ eauto |].
  destruct (scroll_loop b target_posts max_scrolls _) as [s3 [e |]];
    [| eauto ].
  destruct (extract_posts (final_page b) (Some target_posts)) eqn:E; eauto.
Qed.

(** [scrape_posts] on the result of [search_keyword]. *)
Lemma scrape_posts_eq (b : browser) (keyword : string) (max_posts : Z) :
  exists l,
    search_keyword b keyword max_posts = Ok l
    /\ scrape_posts b keyword max_posts
       = Ok (match l with [] => [] | _ => slice_to l max_posts end).
Proof.
  unfold scrape_posts, scrape_posts_m, search_keyword. exn_unfold.
  destruct (search_keyword_m_result b keyword max_posts search0)
    as (s' & l & E & _).
  rewrite E. exists l. split; [ reflexivity |].
  destruct l; reflexivity.
Qed.

Lemma slice_to_length {A} (l : list A) (n : Z) :
  (0 <= n)%Z -> (Z.of_nat (length (slice_to l n)) <= n)%Z.
Proof.
  intros Hn. unfold slice_to.
  destruct (n <? 0)%Z eqn:Hneg; [ apply Z.ltb_lt in Hneg; lia |].
  rewrite length_firstn. lia.
Qed.

(** When the loop is left by the stagnation [break] the streak counter is
    exactly 5 and each of the last five measurements failed to exceed the
    one before it. *)
Lemma scroll_loop_streak (b : browser) (target_posts : Z) (fuel : nat) :
  forall s s',
    streak_inv b s ->
    scroll_loop b target_posts fuel s = (s', Ok Stagnated) ->
    no_new_posts_count s' = 5
    /\ (5 <= scroll_count s')%nat
    /\ forall j,
         (scroll_count s' - 5 < j <= scroll_count s')%nat ->
         (count_at b j <= measured b (j - 1))%nat.
Proof.
  induction fuel as [| fuel IH]; intros s s' (Hprev & Hle & Hlt5 & Hrun) E.
  - destruct (Nat.lt_ge_cases (scroll_count s) max_scrolls) as [Hlt | Hge].
    + apply Nat.ltb_lt in Hlt. cbn [scroll_loop] in E. exn_unfold.
      rewrite Hlt in E. inversion E.
    + rewrite scroll_loop_done in E by assumption. inversion E.
  - destruct (Nat.lt_ge_cases (scroll_count s) max_scrolls) as [Hlt | Hge];
      [| rewrite scroll_loop_done in E by assumption; inversion E ].
    rewrite scroll_loop_step in E by assumption. cbv zeta in E.
    destruct (evaluate b _); [| inversion E ].
    destruct (_ >=? _)%Z; [ inversion E |].
    set (k := (scroll_count s + 1)%nat) in *.
    assert (Hk : measured b k = count_at b k)
      by (unfold k; rewrite Nat.add_1_r; reflexivity).
    assert (Hk1 : (k - 1)%nat = scroll_count s) by (unfold k; lia).
    destruct (previous_count s <? count_at b k)%nat eqn:G.
    + (* growth: the streak is reset *)
      cbn [Nat.leb] in E. apply IH in E; [ exact E |].
      unfold streak_inv. simpl. fold k.
      split; [ symmetry; exact Hk |].
      split; [ lia |]. split; [ lia |].
      intros j Hj. lia.
    + apply Nat.ltb_ge in G.
      destruct (5 <=? no_new_posts_count s + 1)%nat eqn:N.
      * apply Nat.leb_le in N. inversion E; subst s'. simpl.
        fold k. split; [ lia |]. split; [ lia |].
        intros j Hj.
        destruct (Nat.eq_dec j k) as [-> | Hne].
        { rewrite Hk1, <- Hprev. exact G. }
        assert (Hj' : (scroll_count s - no_new_posts_count s < j
                       <= scroll_count s)%nat) by lia.
        specialize (Hrun j Hj').
        destruct j; [ lia | exact Hrun ].
      * apply Nat.leb_gt in N. apply IH in E; [ exact E |].
        unfold streak_inv. simpl. fold k.
        split; [ symmetry; exact Hk |].
        split; [ lia |]. split; [ lia |].
        intros j Hj.
        destruct (Nat.eq_dec j k) as [-> | Hne].
        { rewrite Hk, Hk1, <- Hprev. exact G. }
        apply Hrun. lia.
Qed.

Lemma streak_inv_enter (b : browser) (s : search_frame) :
  streak_inv b (enter_loop s).
Proof.
  unfold streak_inv. simpl.
  split; [ reflexivity |]. split; [ lia |]. split; [ lia |].
  intros j Hj. lia.
Qed.

(** * The claims *)

(** C1.  For every positive [targetCount] the top-level search returns at
    most [targetCount] records: the primary pass of [extract_posts] stops
    once [targetCount] records are emitted, the fallback pass never appends
    past [targetCount], so [extract_posts] and [search_keyword] already
    respect the bound, and [scrape_posts] truncates to it. *)
Theorem search_length_bound (b : browser) (keyword : string)
  (targetCount : Z) :
  (0 < targetCount)%Z ->
  (forall pg s s' r,
     (Z.of_nat (length (posts s)) < targetCount)%Z ->
     for_each slot_range (primary_slot pg targetCount) s = (s', r) ->
     (Z.of_nat (length (posts s')) <= targetCount)%Z)
  /\ (forall pg, exists l,
        extract_posts pg (Some targetCount) = Ok l
        /\ (Z.of_nat (length l) <= targetCount)%Z)
  /\ (exists l,
        search_keyword b keyword targetCount = Ok l
        /\ (Z.of_nat (length l) <= targetCount)%Z)
  /\ (exists l,
        scrape_posts b keyword targetCount = Ok l
        /\ (Z.of_nat (length l) <= targetCount)%Z).
Proof.
  intros Hpos.
  assert (Hsearch : exists l,
             search_keyword b keyword targetCount = Ok l
             /\ (Z.of_nat (length l) <= targetCount)%Z).
  { unfold search_keyword.
    destruct (search_keyword_m_result b keyword targetCount search0)
      as (s' & l & E & [-> | Hl]); rewrite E; simpl.
    - exists []. split; [ reflexivity | simpl; lia ].
    - exists l. split; [ reflexivity |].
      apply (extract_posts_bound (final_page b) (Some targetCount));
        assumption. }
  split; [ intros pg s s' r; apply primary_pass_bound |].
  split.
  { intros pg. destruct (extract_posts_total pg (Some targetCount)) as [l E].
    exists l. split; [ assumption |].
    apply (extract_posts_bound pg (Some targetCount)); assumption. }
  split; [ exact Hsearch |].
  destruct (scrape_posts_eq b keyword targetCount) as (l & _ & ->).
  eexists. split; [ reflexivity |].
  destruct l; [ simpl; lia | apply slice_to_length; lia ].
Qed.

Lemma search_length_bound_witness :
  exists l,
    scrape_posts (browser_of_counts [3]) "amazon acos" 2 = Ok l
    /\ (Z.of_nat (length l) <= 2)%Z.
Proof.
  apply (search_length_bound (browser_of_counts [3]) "amazon acos" 2).
  reflexivity.
Defined.

(** C2.  The loops of both passes run over [range(1, 100)], the slots 1 to
    99: slot 100 is never probed.  On a page whose only link is in slot 100
    the counting pass and the full extraction find nothing, while the same
    link in slot 99 is found by both. *)
Theorem slot_100_never_probed :
  slot_range = seq 1 99
  /\ ~ In 100 slot_range
  /\ extract_posts_for_count page_slot100 = Ok []
  /\ extract_posts page_slot100 (Some 10%Z) = Ok []
  /\ extract_posts_for_count page_slot99
     = Ok [count_post "A question in the hundredth slot"]
  /\ (exists p, extract_posts page_slot99 (Some 10%Z) = Ok [p]).
Proof.
  split; [ reflexivity |].
  split; [ unfold slot_range; rewrite in_seq; lia |].
  split; [ vm_compute; reflexivity |].
  split; [ vm_compute; reflexivity |].
  split; [ vm_compute; reflexivity |].
  eexists. vm_compute. reflexivity.
Qed.

(** C3.  On a page whose slot 1 matches both patterns, with the "more"
    control and the view and like counts present, the record emitted has the
    title and address of the pattern-1 link and the follow fields, and it
    also carries the view and like counts read for pattern 2. *)
Theorem both_patterns_record_carries_views :
  query_selector page_both (selector1 1) <> Ok None
  /\ query_selector page_both (selector2 1) <> Ok None
  /\ extract_posts page_both (Some 10%Z)
     = Ok [ {| Post.title := "What is ACoS in Amazon advertising?";
               Post.url :=
                 "https://www.quora.com/What-is-ACoS-in-Amazon-advertising";
               Post.follow_text := Some "Follow";
               Post.follow_count := Some "7";
               Post.views := Some "1.2K views";
               Post.likes := Some "34";
               Post.content := "" |} ].
Proof.
  split; [ vm_compute; discriminate |].
  split; [ vm_compute; discriminate |].
  vm_compute. reflexivity.
Qed.





Lemma is_absolute_no_slash (h : string) :
  is_absolute h = true -> h <> "" /\ startswith h "/" = false.
Proof.
  destruct h as [| c h']; [ discriminate |].
  cbn [is_absolute]. intros H. apply andb_prop in H. destruct H as [Ha _].
  split; [ discriminate |].
  unfold startswith. cbn [String.prefix].
  destruct (Ascii.ascii_dec "/" c) as [<- |]; [| reflexivity ].
  vm_compute in Ha. discriminate Ha.
Qed.



(** One iteration of the loop on known measurements. *)
Ltac eval_tests :=
  repeat match goal with
  | |- context [if ?c then _ else _] =>
      let v := eval vm_compute in c in
      first [ constr_eq v true | constr_eq v false ];
      change c with v; cbv iota
  end.

Ltac loop_step :=
  rewrite scroll_loop_step by (cbn; unfold max_scrolls; lia);
  cbv zeta;
  cbn [enter_loop scroll_count previous_count no_new_posts_count trace log
       set_scroll_count set_previous_count set_no_new_posts_count Nat.add];
  repeat match goal with
  | H : evaluate _ _ = Ok tt |- _ => rewrite H
  | H : count_at _ _ = _ |- _ => rewrite H
  end;
  eval_tests;
  cbn [enter_loop scroll_count previous_count no_new_posts_count trace log
       set_scroll_count set_previous_count set_no_new_posts_count Nat.add].

(** C6.  The scroll loop is left by its stagnation [break] exactly when
    the streak counter reaches 5, that is at the fifth measurement in a row
    that did not exceed the one before it.  When the first six measurements
    are all 3 and the target is 10, that happens at the sixth scroll: the
    first measurement grew from 0 and the next five did not.  Six scrolls
    and six counting passes were issued and none after them, well within
    the budget of 50, and [search_keyword] goes on to the final
    extraction. *)
Theorem stagnation_stop :
  (forall b target_posts s s',
     scroll_loop b target_posts max_scrolls (enter_loop s)
     = (s', Ok Stagnated) ->
     no_new_posts_count s' = 5
     /\ (5 <= scroll_count s')%nat
     /\ (forall j,
           (scroll_count s' - 5 < j <= scroll_count s')%nat ->
           (count_at b j <= measured b (j - 1))%nat))
  /\ (forall b s,
        map (evaluate b) (seq 1 6) = repeat (Ok tt) 6 ->
        map (count_at b) (seq 1 6) = [3; 3; 3; 3; 3; 3] ->
        exists s',
          scroll_loop b 10 max_scrolls (enter_loop s) = (s', Ok Stagnated)
          /\ scroll_count s' = 6 /\ no_new_posts_count s' = 5
          /\ (scroll_count s' < max_scrolls)%nat
          /\ trace s'
             = (trace s
                ++ [EvScroll 1; EvCount 1; EvScroll 2; EvCount 2;
                    EvScroll 3; EvCount 3; EvScroll 4; EvCount 4;
                    EvScroll 5; EvCount 5; EvScroll 6; EvCount 6])%list)
  /\ (forall b keyword content,
        map (evaluate b) (seq 1 6) = repeat (Ok tt) 6 ->
        map (count_at b) (seq 1 6) = [3; 3; 3; 3; 3; 3] ->
        goto b (search_url keyword) = Ok tt ->
        page_content b = Ok content ->
        no_results content = false ->
        trace (fst (search_keyword_m b keyword 10 search0))
        = [EvGoto (search_url keyword); EvContent;
           EvScroll 1; EvCount 1; EvScroll 2; EvCount 2; EvScroll 3;
           EvCount 3; EvScroll 4; EvCount 4; EvScroll 5; EvCount 5;
           EvScroll 6; EvCount 6; EvExtract]).
Proof.
  assert (Hloop : forall b s,
     map (evaluate b) (seq 1 6) = repeat (Ok tt) 6 ->
     map (count_at b) (seq 1 6) = [3; 3; 3; 3; 3; 3] ->
     exists s',
       scroll_loop b 10 max_scrolls (enter_loop s) = (s', Ok Stagnated)
       /\ scroll_count s' = 6 /\ no_new_posts_count s' = 5
       /\ (scroll_count s' < max_scrolls)%nat
       /\ trace s'
          = (trace s
             ++ [EvScroll 1; EvCount 1; EvScroll 2; EvCount 2;
                 EvScroll 3; EvCount 3; EvScroll 4; EvCount 4;
                 EvScroll 5; EvCount 5; EvScroll 6; EvCount 6])%list).
  { intros b s Hev Hc.
    cbn [map seq repeat] in Hev, Hc.
    injection Hev as E1 E2 E3 E4 E5 E6.
    injection Hc as C1 C2 C3 C4 C5 C6.
    change max_scrolls with 50%nat at 1.
    do 6 loop_step.
    eexists. split; [ reflexivity |].
    split; [ reflexivity |]. split; [ reflexivity |].
    split; [ cbn; unfold max_scrolls; lia |].
    cbn [trace log set_scroll_count set_previous_count
         set_no_new_posts_count].
    repeat rewrite <- app_assoc. reflexivity. }
  split.
  { intros b t s s' E.
    apply (scroll_loop_streak b t max_scrolls (enter_loop s) s');
      [ apply streak_inv_enter | exact E ]. }
  split; [ exact Hloop |].
  intros b keyword content Hev Hc Hg Hp Hn.
  rewrite search_keyword_m_eq. cbv zeta. rewrite Hg, Hp, Hn.
  destruct (Hloop b (log EvContent
                       (log (EvGoto (search_url keyword)) search0)) Hev Hc)
    as (s' & -> & _ & _ & _ & Ht).
  destruct (extract_posts (final_page b) (Some 10%Z));
    cbn [fst trace log]; rewrite Ht; reflexivity.
Qed.

Lemma stagnation_stop_witness :
  (no_new_posts_count
     (fst (scroll_loop (browser_of_counts [3; 3; 3; 3; 3; 3]) 10
             max_scrolls (enter_loop search0))) = 5
   /\ (5 <= 6)%nat
   /\ (forall j,
         (6 - 5 < j <= 6)%nat ->
         (count_at (browser_of_counts [3; 3; 3; 3; 3; 3]) j
          <= measured (browser_of_counts [3; 3; 3; 3; 3; 3]) (j - 1))%nat))
  /\ (exists s',
        scroll_loop (browser_of_counts [3; 3; 3; 3; 3; 3]) 10 max_scrolls
          (enter_loop search0) = (s', Ok Stagnated)
        /\ scroll_count s' = 6 /\ no_new_posts_count s' = 5
        /\ (scroll_count s' < max_scrolls)%nat
        /\ trace s'
           = (trace search0
              ++ [EvScroll 1; EvCount 1; EvScroll 2; EvCount 2;
                  EvScroll 3; EvCount 3; EvScroll 4; EvCount 4;
                  EvScroll 5; EvCount 5; EvScroll 6; EvCount 6])%list)
  /\ trace (fst (search_keyword_m (browser_of_counts [3; 3; 3; 3; 3; 3])
                   "amazon acos" 10 search0))
     = [EvGoto (search_url "amazon acos"); EvContent;
        EvScroll 1; EvCount 1; EvScroll 2; EvCount 2; EvScroll 3;
        EvCount 3; EvScroll 4; EvCount 4; EvScroll 5; EvCount 5;
        EvScroll 6; EvCount 6; EvExtract].
Proof.
  destruct stagnation_stop as (Hgen & Hloop & Hsearch).
  split.
  - apply (Hgen (browser_of_counts [3; 3; 3; 3; 3; 3]) 10%Z search0
             (fst (scroll_loop (browser_of_counts [3; 3; 3; 3; 3; 3]) 10
                     max_scrolls (enter_loop search0)))).
    vm_compute. reflexivity.
  - split.
    + apply (Hloop (browser_of_counts [3; 3; 3; 3; 3; 3]) search0).
      * reflexivity.
      * vm_compute. reflexivity.
    + apply (Hsearch (browser_of_counts [3; 3; 3; 3; 3; 3]) "amazon acos"
               "<html><body>results</body></html>").
      * reflexivity.
      * vm_compute. reflexivity.
      * reflexivity.
      * reflexivity.
      * vm_compute. reflexivity.
Defined.

(** C7.  The scroll loop is left by its target [break] at the first
    measurement that reaches the target and at no earlier one: every
    measurement before the last scroll is below the target, and the loop is
    left by that [break] exactly when the last measurement reaches the
    target.  With the measurements 2, 5, 9, 12 and target 10 the loop goes
    on after the third scroll and is left by the target [break] at the
    fourth. *)
Theorem target_reached_stop :
  (forall b target_posts s s' e,
     scroll_loop b target_posts max_scrolls (enter_loop s) = (s', Ok e) ->
     (forall j, (1 <= j < scroll_count s')%nat ->
        (Z.of_nat (count_at b j) < target_posts)%Z)
     /\ (e = TargetReached <->
         (1 <= scroll_count s')%nat
         /\ (target_posts <= Z.of_nat (count_at b (scroll_count s')))%Z))
  /\ (forall b s,
        map (evaluate b) (seq 1 4) = repeat (Ok tt) 4 ->
        map (count_at b) (seq 1 4) = [2; 5; 9; 12] ->
        exists s',
          scroll_loop b 10 max_scrolls (enter_loop s)
          = (s', Ok TargetReached)
          /\ scroll_count s' = 4
          /\ trace s'
             = (trace s
                ++ [EvScroll 1; EvCount 1; EvScroll 2; EvCount 2;
                    EvScroll 3; EvCount 3; EvScroll 4; EvCount 4])%list).
Proof.
  split.
  - intros b t s s' e E.
    pose proof (scroll_loop_fuel b t max_scrolls (enter_loop s) s') as Hfuel.
    apply scroll_loop_exit in E as Hexit.
    destruct Hexit as (_ & Hbefore & Ht & Hs & Hb).
    cbn [enter_loop scroll_count set_scroll_count set_previous_count
         set_no_new_posts_count] in *.
    split; [ intros j Hj; apply Hbefore; lia |].
    split; [ intros He; destruct (Ht He); split; [ lia | assumption ] |].
    intros (H1 & Hge). destruct e.
    + reflexivity.
    + destruct (Hs eq_refl) as (_ & Hlt & _). lia.
    + destruct (Hb eq_refl) as (_ & Hlt). specialize (Hlt ltac:(lia)). lia.
    + exfalso. apply Hfuel; [ lia | exact E ].
  - intros b s Hev Hc.
    cbn [map seq repeat] in Hev, Hc.
    injection Hev as E1 E2 E3 E4.
    injection Hc as C1 C2 C3 C4.
    change max_scrolls with 50%nat.
    do 4 loop_step.
    eexists. split; [ reflexivity |].
    split; [ reflexivity |].
    cbn [trace log set_scroll_count set_previous_count
         set_no_new_posts_count].
    repeat rewrite <- app_assoc. reflexivity.
Qed.

Lemma target_reached_stop_witness :
  ((forall j, (1 <= j < 4)%nat ->
      (Z.of_nat (count_at (browser_of_counts [2; 5; 9; 12]%nat) j) < 10)%Z)
   /\ (TargetReached = TargetReached <->
       (1 <= 4)%nat
       /\ (10 <= Z.of_nat
                   (count_at (browser_of_counts [2; 5; 9; 12]%nat) 4))%Z))
  /\ exists s',
       scroll_loop (browser_of_counts [2; 5; 9; 12]) 10 max_scrolls
         (enter_loop search0) = (s', Ok TargetReached)
       /\ scroll_count s' = 4
       /\ trace s'
          = (trace search0
             ++ [EvScroll 1; EvCount 1; EvScroll 2; EvCount 2;
                 EvScroll 3; EvCount 3; EvScroll 4; EvCount 4])%list.
Proof.
  destruct target_reached_stop as (Hgen & Hrun).
  split.
  - apply (Hgen (browser_of_counts [2; 5; 9; 12]) 10%Z search0
             (fst (scroll_loop (browser_of_counts [2; 5; 9; 12]) 10
                     max_scrolls (enter_loop search0)))
             TargetReached).
    vm_compute. reflexivity.
  - apply (Hrun (browser_of_counts [2; 5; 9; 12]) search0).
    + reflexivity.
    + vm_compute. reflexivity.
Defined.

(** C8.  When navigation succeeds and the page text contains "no results"
    or "no answers" in any letter case, [search_keyword] returns the empty
    list at once: the only interactions issued are the navigation and the
    reading of the page text, no scroll and no counting pass, and the
    scroll counter is untouched. *)
Theorem no_results_returns_empty (b : browser) (keyword content : string)
  (target_posts : Z) :
  goto b (search_url keyword) = Ok tt ->
  page_content b = Ok content ->
  no_results content = true ->
  search_keyword b keyword target_posts = Ok []
  /\ search_keyword_m b keyword target_posts search0
     = ({| scroll_count := 0; previous_count := 0; no_new_posts_count := 0;
           trace := [EvGoto (search_url keyword); EvContent] |}, Ok [])
  /\ (forall k,
        ~ In (EvScroll k)
            (trace (fst (search_keyword_m b keyword target_posts search0)))
        /\ ~ In (EvCount k)
              (trace (fst (search_keyword_m b keyword target_posts
                             search0)))).
Proof.
  intros Hg Hp Hn.
  assert (E : search_keyword_m b keyword target_posts search0
              = ({| scroll_count := 0; previous_count := 0;
                    no_new_posts_count := 0;
                    trace := [EvGoto (search_url keyword); EvContent] |},
                 Ok [])).
  { rewrite search_keyword_m_eq. cbv zeta. rewrite Hg, Hp, Hn. reflexivity. }
  split; [ unfold search_keyword; rewrite E; reflexivity |].
  split; [ exact E |].
  intros k. rewrite E. simpl.
  split; intros [H | [H | []]]; discriminate H.
Qed.

Lemma no_results_returns_empty_witness :
  search_keyword browser_no_results "amazon acos" 10 = Ok []
  /\ search_keyword_m browser_no_results "amazon acos" 10 search0
     = ({| scroll_count := 0; previous_count := 0; no_new_posts_count := 0;
           trace := [EvGoto (search_url "amazon acos"); EvContent] |}, Ok [])
  /\ (forall k,
        ~ In (EvScroll k)
            (trace (fst (search_keyword_m browser_no_results "amazon acos"
                           10 search0)))
        /\ ~ In (EvCount k)
              (trace (fst (search_keyword_m browser_no_results "amazon acos"
                             10 search0)))).
Proof.
  apply (no_results_returns_empty browser_no_results "amazon acos"
           "<html><body>No results found</body></html>" 10).
  - reflexivity.
  - reflexivity.
  - vm_compute. reflexivity.
Defined.




(** C10.  With a requested count of 0, [scrape_posts] returns the empty
    list for every keyword and every browser, although [extract_posts] and
    [search_keyword] may return one record in that case: the slice
    [posts[:0]] discards it. *)
Theorem zero_count_returns_empty :
  (forall b keyword, scrape_posts b keyword 0 = Ok [])
  /\ (exists p, extract_posts page_pattern1 (Some 0%Z) = Ok [p])
  /\ (exists p,
        search_keyword (browser_of_counts [1]) "amazon acos" 0 = Ok [p])
  /\ scrape_posts (browser_of_counts [1]) "amazon acos" 0 = Ok [].
Proof.
  assert (H : forall b keyword, scrape_posts b keyword 0 = Ok []).
  { intros b keyword.
    destruct (scrape_posts_eq b keyword 0) as (l & _ & ->).
    destruct l; reflexivity. }
  split; [ exact H |].
  split; [ eexists; vm_compute; reflexivity |].
  split; [ eexists; vm_compute; reflexivity |].
  apply H.
Qed.
